(** * vpype [read]: SVG documents to scaled polylines

    A shallow embedding of [src/vpype/read.py].  The command resolves a
    transform from the root element's [viewBox], [width] and [height]
    attributes, linearises every segment of every flattened path, scales the
    points and collects one [LineString] per segment.

    Modelling choices.
    - Python floats are read as exact rationals ([Qc]): rounding, infinities
      and NaN are outside the model.  A division whose divisor is zero raises
      [ZeroDivisionError], as Python's [/] does.
    - Exceptions are values of [exn]; code that may raise returns [result].
    - [np.empty] and [np.empty_like] hand out uninitialised memory.  The
      contents of that memory are read from a [heap] threaded through the
      extraction loop, so that what the loop leaves unwritten would show in
      its output.
    - The SVG library's document is the record [Document]: the root's
      attribute dictionary and the flattened paths.  A segment is either a
      [Line] or a curve exposing [length()] and [point(t)].
    - [LineString] and [MultiLineString] are the geometry library's
      containers.  The model keeps the coordinates they are built from, and
      of the library's checks the one on the size of a [LineString]: fewer
      than two points is a [ValueError].
    - [convert] (from [vpype/utils.py]) and the builtin [float] are
      parameters of the development. *)

From Stdlib Require Import ZArith QArith Qcanon Qround Ascii String.
From stdpp Require Import base tactics option list numbers gmap strings.

Local Open Scope Z_scope.
Local Open Scope Qc_scope.

(** ** Exceptions and the two effect layers *)

Inductive exn : Type :=
| KeyError (key : string)
| IndexError
| ValueError
| ZeroDivisionError.

Inductive result (A : Type) : Type :=
| Ok (a : A)
| Raise (e : exn).
Arguments Ok {A} a.
Arguments Raise {A} e.

#[global] Instance exn_eq_dec : EqDecision exn.
Proof. solve_decision. Defined.
#[global] Instance result_eq_dec `{EqDecision A} : EqDecision (result A).
Proof. solve_decision. Defined.

#[global] Instance result_ret : MRet result := fun _ a => Ok a.
#[global] Instance result_bind : MBind result := fun _ _ f m =>
  match m with Ok a => f a | Raise e => Raise e end.

(** Uninitialised memory: the float found in each cell not yet handed out. *)
Definition heap : Type := nat -> Qc.

Definition M (A : Type) : Type := heap -> result (A * heap).

#[global] Instance M_ret : MRet M := fun _ a h => Ok (a, h).
#[global] Instance M_bind : MBind M := fun _ _ f m h =>
  match m h with Ok (a, h') => f a h' | Raise e => Raise e end.

Definition lift {A} (r : result A) : M A := fun h =>
  match r with Ok a => Ok (a, h) | Raise e => Raise e end.

(** What a computation returns or raises when started on the memory [h]. *)
Definition run {A} (m : M A) (h : heap) : result A :=
  match m h with Ok (a, _) => Ok a | Raise e => Raise e end.

(** [for x in xs: s = body x s] *)
Fixpoint for_each {A S} (xs : list A) (body : A -> S -> M S) (s : S) : M S :=
  match xs with
  | [] => mret s
  | x :: xs' => s' ← body x s; for_each xs' body s'
  end.

(** ** Python and numpy primitives *)

Definition of_int (z : Z) : Qc := Q2Qc (inject_Z z).

(** [a / b] on floats. *)
Definition truediv (a b : Qc) : result Qc :=
  if decide (b = 0) then Raise ZeroDivisionError else Ok (a / b).

(** [int(math.ceil(x))] *)
Definition math_ceil (x : Qc) : Z := Qceiling x.

(** [range(n)] *)
Definition range (n : Z) : list Z := seqZ 0 n.

(** Position addressed by the index [i] in a sequence of [len] items;
    negative indices count from the end. *)
Definition py_index (len : nat) (i : Z) : option nat :=
  if decide (0 <= i < Z.of_nat len)%Z then Some (Z.to_nat i)
  else if decide (- Z.of_nat len <= i < 0)%Z then Some (Z.to_nat (Z.of_nat len + i))
  else None.

(** [l[i]] *)
Definition getitem {A} (l : list A) (i : Z) : result A :=
  match py_index (length l) i with
  | Some k => match l !! k with Some x => Ok x | None => Raise IndexError end
  | None => Raise IndexError
  end.

(** [l[i] = x] *)
Definition setitem {A} (l : list A) (i : Z) (x : A) : result (list A) :=
  match py_index (length l) i with
  | Some k => Ok (<[k := x]> l)
  | None => Raise IndexError
  end.

(** [d[k]] on a dictionary. *)
Definition dict_getitem (d : gmap string string) (k : string) : result string :=
  match d !! k with
  | Some v => Ok v
  | None => Raise (KeyError k)
  end.

(** [[f(s) for s in l]]: the first failure ends the comprehension. *)
Fixpoint comprehension {A B} (f : A -> result B) (l : list A) : result (list B) :=
  match l with
  | [] => Ok []
  | a :: l' => b ← f a; bs ← comprehension f l'; Ok (b :: bs)
  end.

(** Whitespace as [str.split()] sees it in ASCII: tab to carriage return,
    the four separators 28 to 31, and space. *)
Definition is_space (a : ascii) : bool :=
  let n := nat_of_ascii a in
  ((9 <=? n)%nat && (n <=? 13)%nat) || ((28 <=? n)%nat && (n <=? 32)%nat).

Definition flush (cur : list ascii) : list string :=
  match cur with
  | [] => []
  | _ => [string_of_list_ascii (rev cur)]
  end.

Fixpoint split_go (cur : list ascii) (s : string) : list string :=
  match s with
  | EmptyString => flush cur
  | String a s' =>
      if is_space a then flush cur ++ split_go [] s'
      else split_go (a :: cur) s'
  end.

(** [s.split()] *)
Definition split (s : string) : list string := split_go [] s.

(** Two uninitialised floats per row, [n] rows; the cells are consumed. *)
Definition uninitialised (n : nat) : M (list (Qc * Qc)) := fun h =>
  Ok (map (fun k => (h (2 * k)%nat, h (2 * k + 1)%nat)) (seq 0 n),
      fun k => h (2 * n + k)%nat).

Record complex : Type := Complex { re : Qc; im : Qc }.

#[global] Instance complex_eq_dec : EqDecision complex.
Proof. solve_decision. Defined.

(** [np.empty(n, dtype=complex)] *)
Definition np_empty (n : Z) : M (list complex) :=
  if decide (n < 0)%Z then lift (Raise ValueError)
  else cells ← uninitialised (Z.to_nat n);
       mret (map (fun c => Complex c.1 c.2) cells).

(** [a.view(dtype=float).reshape(len(a), 2)] on a complex array. *)
Definition view_float (a : list complex) : list (Qc * Qc) :=
  map (fun c => (re c, im c)) a.

(** [np.empty_like(a)] for an [n x 2] float array. *)
Definition np_empty_like (a : list (Qc * Qc)) : M (list (Qc * Qc)) :=
  uninitialised (length a).

(** [a[:, 0]] and [a[:, 1]] *)
Definition column0 (a : list (Qc * Qc)) : list Qc := map fst a.
Definition column1 (a : list (Qc * Qc)) : list Qc := map snd a.

(** [a[:, 0] = v] and [a[:, 1] = v]; the shapes must agree. *)
Definition set_column0 (a : list (Qc * Qc)) (v : list Qc) : result (list (Qc * Qc)) :=
  if decide (length v = length a) then Ok (zip_with (fun r x => (x, r.2)) a v)
  else Raise ValueError.
Definition set_column1 (a : list (Qc * Qc)) (v : list Qc) : result (list (Qc * Qc)) :=
  if decide (length v = length a) then Ok (zip_with (fun r y => (r.1, y)) a v)
  else Raise ValueError.

(** ** Documents, segments and the output geometry *)

Inductive segment : Type :=
| Line (start end_ : complex)
| Curve (start end_ : complex) (length : Qc) (point : Qc -> complex).

Record FlattenedPath : Type := { path : list segment }.

Record Document : Type := {
  root_attrib : gmap string string;
  flatten_all_paths : list FlattenedPath
}.

Record LineString : Type := { coords_of : list (Qc * Qc) }.
Record MultiLineString : Type := { geoms : list LineString }.

(** [LineString(coordinates)]: the geometry library refuses to build a line
    from fewer than two points. *)
Definition new_LineString (coordinates : list (Qc * Qc)) : result LineString :=
  if decide (length coordinates < 2)%nat then Raise ValueError
  else Ok {| coords_of := coordinates |}.

#[global] Instance LineString_eq_dec : EqDecision LineString.
Proof. solve_decision. Defined.
#[global] Instance MultiLineString_eq_dec : EqDecision MultiLineString.
Proof. solve_decision. Defined.

(** The four locals [scale_x], [scale_y], [offset_x], [offset_y]. *)
Record transform : Type := {
  scale_x : Qc; scale_y : Qc; offset_x : Qc; offset_y : Qc
}.

#[global] Instance transform_eq_dec : EqDecision transform.
Proof. solve_decision. Defined.

(** ** The command *)

Section Read.

(** [convert] of [vpype/utils.py] and the builtin [float], both on strings. *)
Variable convert : string -> result Qc.
Variable py_float : string -> result Qc.

(** Lines 42 to 60: the transform read off the root element. *)
Definition viewbox_transform (attrib : gmap string string) : result transform :=
  if decide (is_Some (attrib !! "viewBox"%string)) then
    sw ← dict_getitem attrib "width";
    w ← convert sw;
    sh ← dict_getitem attrib "height";
    h ← convert sh;
    sv ← dict_getitem attrib "viewBox";
    viewbox ← comprehension py_float (split sv);
    v2 ← getitem viewbox 2;
    v0 ← getitem viewbox 0;
    sx ← truediv w (v2 - v0);
    v3 ← getitem viewbox 3;
    v1 ← getitem viewbox 1;
    sy ← truediv h (v3 - v1);
    v0' ← getitem viewbox 0;
    v1' ← getitem viewbox 1;
    Ok {| scale_x := sx; scale_y := sy; offset_x := - v0'; offset_y := - v1' |}
  else
    Ok {| scale_x := 1; scale_y := 1; offset_x := 0; offset_y := 0 |}.

(** Line 69: [step = int(math.ceil(elem.length() / quantization))]. *)
Definition curve_step (length quantization : Qc) : result Z :=
  r ← truediv length quantization;
  Ok (math_ceil r).

(** Lines 65 to 74: the complex array [coords] of one segment. *)
Definition linearize (quantization : Qc) (elem : segment) : M (list complex) :=
  match elem with
  | Line start end_ => mret [start; end_]
  | Curve start end_ length point =>
      step ← lift (curve_step length quantization);
      coords ← np_empty (step + 1);
      coords ← lift (setitem coords 0 start);
      coords ← for_each (range (step - 1)) (fun i coords =>
                 t ← lift (truediv (of_int (i + 1)) (of_int step));
                 lift (setitem coords (i + 1) (point t))) coords;
      lift (setitem coords (-1) end_)
  end.

(** Lines 77 to 80: [final_coords] from the array [coords]. *)
Definition scale_coords (t : transform) (coords : list complex) : M (list (Qc * Qc)) :=
  let coords := view_float coords in
  final_coords ← np_empty_like coords;
  final_coords ← lift (set_column0 final_coords
                    (map (fun x => scale_x t * (x + offset_x t)) (column0 coords)));
  final_coords ← lift (set_column1 final_coords
                    (map (fun y => scale_y t * (y + offset_y t)) (column1 coords)));
  mret final_coords.

(** The body of the inner loop, lines 65 to 82. *)
Definition read_segment (t : transform) (quantization : Qc)
    (elem : segment) (ls_array : list LineString) : M (list LineString) :=
  coords ← linearize quantization elem;
  final_coords ← scale_coords t coords;
  ls ← lift (new_LineString final_coords);
  mret (ls_array ++ [ls]).

(** [read(file, quantization)], from the parsed document on. *)
Definition read (doc : Document) (quantization : Qc) : M MultiLineString :=
  let results := flatten_all_paths doc in
  t ← lift (viewbox_transform (root_attrib doc));
  ls_array ← for_each results (fun result ls_array =>
                for_each (path result) (read_segment t quantization) ls_array) [];
  mret {| geoms := ls_array |}.

End Read.

(** All segments of a document, in the order the two loops visit them. *)
Definition segments (doc : Document) : list segment :=
  concat (map path (flatten_all_paths doc)).

(** ** Concrete readings of the two parameters

    Plain decimal literals, [[+-]digits[.digits]], as [float] reads them;
    anything else is a [ValueError].  A length without a unit is in pixels
    already, so the same reading serves for [convert] on such strings. *)

Definition digit (a : ascii) : option Z :=
  let n := nat_of_ascii a in
  if ((48 <=? n)%nat && (n <=? 57)%nat)%bool then Some (Z.of_nat (n - 48)) else None.

Fixpoint read_digits (s : string) (n : Z) (k : nat) : Z * nat * string :=
  match s with
  | String a s' =>
      match digit a with
      | Some d => read_digits s' (10 * n + d)%Z (S k)
      | None => (n, k, s)
      end
  | EmptyString => (n, k, s)
  end.

Definition decimal_literal (s : string) : result Qc :=
  let '(neg, s) :=
    match s with
    | String "-" s' => (true, s')
    | String "+" s' => (false, s')
    | _ => (false, s)
    end in
  let '(i, ki, s) := read_digits s 0 0 in
  let '(f, kf, s) :=
    match s with
    | String "." s' => read_digits s' 0 0
    | _ => (0%Z, 0%nat, s)
    end in
  match s with
  | EmptyString =>
      if (ki + kf =? 0)%nat then Raise ValueError
      else let v := of_int i + of_int f / of_int (10 ^ Z.of_nat kf) in
           Ok (if neg then - v else v)
  | _ => Raise ValueError
  end.

(** Memory that happens to hold zeros, and memory that holds something else. *)
Definition zeroed : heap := fun _ => 0.
Definition dirty : heap := fun k => of_int (Z.of_nat k + 7).

(** ** The transform as the specification words it

    [viewBox] read as [minX minY vbWidth vbHeight]: scale by the ratio of the
    size to the viewBox size, offset by the negated minimum. *)
Definition spec_transform (w h minX minY vbWidth vbHeight : Qc) : result transform :=
  sx ← truediv w vbWidth;
  sy ← truediv h vbHeight;
  Ok {| scale_x := sx; scale_y := sy; offset_x := - minX; offset_y := - minY |}.

(** ** Values of the stateful computations

    [computes m r]: started on any memory, [m] returns the value of [r], or
    raises the exception of [r]. *)
Definition computes {A} (m : M A) (r : result A) : Prop :=
  forall h,
    match r with
    | Ok a => exists h', m h = Ok (a, h')
    | Raise e => m h = Raise e
    end.

(** The points of a curve cut into [step] parametric intervals. *)
Definition curve_points (start end_ : complex) (point : Qc -> complex) (step : Z)
  : list complex :=
  if decide (step = 0)%Z then [end_]
  else start :: map (fun i => point (of_int i / of_int step)) (seqZ 1 (step - 1))
         ++ [end_].

Definition linearize_value (quantization : Qc) (elem : segment) : result (list complex) :=
  match elem with
  | Line start end_ => Ok [start; end_]
  | Curve start end_ length point =>
      step ← curve_step length quantization;
      if decide (step + 1 < 0)%Z then Raise ValueError
      else if decide (step + 1 = 0)%Z then Raise IndexError
      else Ok (curve_points start end_ point step)
  end.

(** Section 4.3 of the specification on one raw point. *)
Definition scale_point (t : transform) (c : complex) : Qc * Qc :=
  (scale_x t * (re c + offset_x t), scale_y t * (im c + offset_y t)).

Definition segment_value (t : transform) (quantization : Qc) (elem : segment)
  : result LineString :=
  coords ← linearize_value quantization elem;
  new_LineString (map (scale_point t) coords).

Section ReadValue.

Variable convert : string -> result Qc.
Variable py_float : string -> result Qc.

Definition read_value (doc : Document) (quantization : Qc) : result MultiLineString :=
  t ← viewbox_transform convert py_float (root_attrib doc);
  ls_array ← comprehension (segment_value t quantization) (segments doc);
  Ok {| geoms := ls_array |}.

End ReadValue.

(** ** Segments by the sign of their length *)

(** Lines, and curves whose [length()] is positive. *)
Definition length_pos (elem : segment) : Prop :=
  match elem with
  | Line _ _ => True
  | Curve _ _ len _ => 0 < len
  end.

(** ** Sample documents *)

Definition root (width height viewBox : string) : gmap string string :=
  <["width" := width]> (<["height" := height]> (<["viewBox" := viewBox]> ∅)).

(** [width="100" height="50" viewBox="0 0 200 100"] *)
Definition attrib_scaled : gmap string string := root "100" "50" "0 0 200 100".
(** [width="100" height="100" viewBox="10 10 100 100"] *)
Definition attrib_offset : gmap string string := root "100" "100" "10 10 100 100".
(** [width="100" height="100" viewBox="10 10 10 10"] *)
Definition attrib_square : gmap string string := root "100" "100" "10 10 10 10".
(** [width="100" height="100" viewBox="10 10 0 0"] *)
Definition attrib_empty_box : gmap string string := root "100" "100" "10 10 0 0".
(** [viewBox="0 0 200 100" height="50"] *)
Definition attrib_no_width : gmap string string :=
  <["height" := "50"]> (<["viewBox" := "0 0 200 100"]> ∅).
(** [viewBox="0 0 200 100" width="100"] *)
Definition attrib_no_height : gmap string string :=
  <["width" := "100"]> (<["viewBox" := "0 0 200 100"]> ∅).

Definition origin : complex := Complex 0 0.
Definition pt (x y : Z) : complex := Complex (of_int x) (of_int y).

(** The chord from (0,0) to (3,4), of length 5, offered as a curve. *)
Definition chord : segment :=
  Curve origin (pt 3 4) (of_int 5)
    (fun t => Complex (of_int 3 * t) (of_int 4 * t)).

(** A curve that starts and ends at the origin and has no length. *)
Definition dot : segment := Curve origin origin 0 (fun _ => origin).

Definition diagonal : segment := Line origin (pt 10 10).

Definition doc_plain : Document :=
  {| root_attrib := ∅;
     flatten_all_paths := [ {| path := [diagonal; chord] |}; {| path := [] |};
                            {| path := [Line (pt 1 2) (pt 3 4)] |} ] |}.

Definition doc_scaled : Document :=
  {| root_attrib := attrib_scaled;
     flatten_all_paths := [ {| path := [Line origin (pt 200 100)] |};
                            {| path := [chord] |} ] |}.

Definition doc_text_only : Document :=
  {| root_attrib := attrib_scaled; flatten_all_paths := [] |}.

Definition doc_square : Document :=
  {| root_attrib := attrib_square; flatten_all_paths := [ {| path := [diagonal] |} ] |}.

Definition doc_no_width : Document :=
  {| root_attrib := attrib_no_width; flatten_all_paths := [ {| path := [diagonal] |} ] |}.

Definition doc_no_height : Document :=
  {| root_attrib := attrib_no_height; flatten_all_paths := [ {| path := [diagonal] |} ] |}.

Definition frac (n : Z) (d : positive) : Qc := Q2Qc (n # d).

(** What [doc_plain] and [doc_scaled] come out as at quantization 2. *)
Definition out_plain : MultiLineString :=
  {| geoms :=
       [ {| coords_of := [(0, 0); (of_int 10, of_int 10)] |};
         {| coords_of := [(0, 0); (of_int 1, frac 4 3); (of_int 2, frac 8 3);
                          (of_int 3, of_int 4)] |};
         {| coords_of := [(of_int 1, of_int 2); (of_int 3, of_int 4)] |} ] |}.

Definition out_scaled : MultiLineString :=
  {| geoms :=
       [ {| coords_of := [(0, 0); (of_int 100, of_int 50)] |};
         {| coords_of := [(0, 0); (frac 1 2, frac 2 3); (of_int 1, frac 4 3);
                          (frac 3 2, of_int 2)] |} ] |}.

(** ** Segment kinds, blank strings and further sample roots *)

Definition is_line (elem : segment) : Prop :=
  match elem with
  | Line _ _ => True
  | Curve _ _ _ _ => False
  end.

Definition is_curve (elem : segment) : Prop :=
  match elem with
  | Line _ _ => False
  | Curve _ _ _ _ => True
  end.

(** A string of whitespace only, the empty string included. *)
Fixpoint blank (s : string) : bool :=
  match s with
  | EmptyString => true
  | String a s' => is_space a && blank s'
  end.

(** A document with the root [attrib] and the flattened paths [results]. *)
Definition document (attrib : gmap string string) (results : list FlattenedPath)
  : Document :=
  {| root_attrib := attrib; flatten_all_paths := results |}.

(** [viewBox] with a fifth number, with three numbers, and blank. *)
Definition attrib_five : gmap string string := root "100" "100" "10 10 100 100 7".
Definition attrib_three : gmap string string := root "100" "100" "10 10 100".
Definition attrib_three_equal : gmap string string := root "100" "100" "10 10 10".
Definition attrib_two : gmap string string := root "100" "100" "10 10".
Definition attrib_blank : gmap string string := root "100" "100" "   ".
(** Sizes and numbers that are no decimal literals. *)
Definition attrib_bad_width : gmap string string := root "wide" "100" "0 0 200 100".
Definition attrib_bad_height : gmap string string := root "100" "tall" "0 0 200 100".
Definition attrib_bad_number : gmap string string := root "100" "100" "0 0 two 100".

(** A quarter turn from (1,0) to (0,1) given by a rational parametrisation
    of the unit circle; its length is taken as 3/2. *)
Definition quarter : segment :=
  Curve (pt 1 0) (pt 0 1) (frac 3 2)
    (fun t => Complex ((1 - t * t) / (1 + t * t)) (of_int 2 * t / (1 + t * t))).

(** The segments of [doc_plain], drawn as one path. *)
Definition doc_plain_regrouped : Document :=
  document ∅ [ {| path := [diagonal; chord; Line (pt 1 2) (pt 3 4)] |} ].

(** Straight lines only, under the root [attrib_scaled]. *)
Definition doc_lines : Document :=
  document attrib_scaled
    [ {| path := [diagonal] |}; {| path := [Line (pt 1 2) (pt 3 4)] |} ].

(** A drawing that holds nothing but the curve [dot]. *)
Definition doc_dot : Document := document ∅ [ {| path := [dot] |} ].

(** A string of ASCII characters only. *)
Fixpoint ascii_only (s : string) : bool :=
  match s with
  | EmptyString => true
  | String a s' => (nat_of_ascii a <? 128)%nat && ascii_only s'
  end.

(** The transform that [attrib_scaled] resolves to. *)
Definition halve : transform :=
  {| scale_x := frac 1 2; scale_y := frac 1 2; offset_x := 0; offset_y := 0 |}.

(** * Proofs *)

(** ** The effect layers *)

(** Expose the outermost bind of a stateful computation. *)
Ltac bind_step := unfold mbind at 1, M_bind at 1.

Lemma computes_ret {A} (a : A) : computes (mret a) (Ok a).
Proof. intros h. by exists h. Qed.

Lemma computes_lift {A} (r : result A) : computes (lift r) r.
Proof. intros h. destruct r as [a|e]; [by exists h | done]. Qed.

Lemma computes_bind {A B} (m : M A) (r : result A) (f : A -> M B) (g : A -> result B) :
  computes m r ->
  (forall a, r = Ok a -> computes (f a) (g a)) ->
  computes (m ≫= f) (r ≫= g).
Proof.
  intros Hm Hf h. specialize (Hm h). unfold mbind, M_bind, result_bind.
  destruct r as [a|e].
  - destruct Hm as [h' ->]. apply (Hf a eq_refl h').
  - by rewrite Hm.
Qed.

Lemma computes_eq {A} (m : M A) (r r' : result A) :
  computes m r -> r = r' -> computes m r'.
Proof. by intros Hm <-. Qed.

Lemma computes_run {A} (m : M A) (r : result A) h : computes m r -> run m h = r.
Proof.
  intros Hm. specialize (Hm h). unfold run.
  destruct r as [a|e]; [by destruct Hm as [h' ->] | by rewrite Hm].
Qed.

(** ** Arithmetic of the rationals used below *)

Lemma of_int_eq_0 (z : Z) : of_int z = 0 -> z = 0%Z.
Proof.
  unfold of_int. intros H. apply (f_equal this) in H. simpl in H.
  apply Qred_eq_iff in H. unfold Qeq in H. simpl in H. lia.
Qed.

Lemma truediv_of_int (a : Qc) (step : Z) :
  step <> 0%Z -> truediv a (of_int step) = Ok (a / of_int step).
Proof.
  intros Hs. unfold truediv. case_decide as H; [|done].
  by apply of_int_eq_0 in H.
Qed.

(** ** Item assignment *)

Lemma insert_middle {A} (pre : list A) (x y : A) (rest : list A) :
  <[length pre := y]> (pre ++ x :: rest) = pre ++ y :: rest.
Proof.
  rewrite insert_app_r_alt by lia. by rewrite Nat.sub_diag.
Qed.

Lemma setitem_middle {A} (pre : list A) (x y : A) (rest : list A) (i : Z) :
  i = Z.of_nat (length pre) ->
  setitem (pre ++ x :: rest) i y = Ok (pre ++ y :: rest).
Proof.
  intros ->. unfold setitem, py_index.
  rewrite length_app. simpl. case_decide as H; [|lia].
  rewrite Nat2Z.id. f_equal. by rewrite insert_middle.
Qed.

Lemma setitem_head {A} (x y : A) (rest : list A) :
  setitem (x :: rest) 0 y = Ok (y :: rest).
Proof. by apply (setitem_middle [] x y rest). Qed.

Lemma setitem_last {A} (pre : list A) (x y : A) :
  setitem (pre ++ [x]) (-1) y = Ok (pre ++ [y]).
Proof.
  unfold setitem, py_index. rewrite length_app. simpl.
  case_decide as H; [|lia].
  replace (Z.to_nat (Z.of_nat (length pre + 1) + -1)) with (length pre) by lia.
  f_equal. by rewrite insert_middle.
Qed.

(** ** The loop of lines 72 and 73 *)

Lemma fill_loop (point : Qc -> complex) (step : Z) (n : nat) :
  forall (m : Z) (pre rest : list complex) (h : heap),
    step <> 0%Z ->
    Z.of_nat (length pre) = (m + 1)%Z ->
    (n <= length rest)%nat ->
    for_each (seqZ m (Z.of_nat n))
      (fun i coords =>
         t ← lift (truediv (of_int (i + 1)) (of_int step));
         lift (setitem coords (i + 1) (point t)))
      (pre ++ rest) h
    = Ok (pre ++ map (fun i => point (of_int i / of_int step)) (seqZ (m + 1) (Z.of_nat n))
            ++ drop n rest, h).
Proof.
  induction n as [|n IH]; intros m pre rest h Hs Hpre Hn.
  - simpl. by rewrite drop_0.
  - rewrite !(seqZ_cons _ (Z.of_nat (S n))) by lia.
    replace (Z.pred (Z.of_nat (S n))) with (Z.of_nat n) by lia.
    destruct rest as [|r rest]; [simpl in Hn; lia|].
    simpl for_each. do 2 bind_step.
    rewrite truediv_of_int by done. simpl lift at 1. cbv beta iota.
    rewrite (setitem_middle pre r) by lia. simpl lift. cbv beta iota.
    rewrite (cons_middle _ pre rest). rewrite app_assoc.
    rewrite (IH (Z.succ m) (pre ++ [point (of_int (m + 1) / of_int step)]) rest h Hs).
    + rewrite <- app_assoc. simpl.
      by replace (Z.succ m + 1)%Z with (Z.succ (m + 1)) by lia.
    + rewrite length_app. simpl. lia.
    + simpl in Hn. lia.
Qed.

(** ** Fresh arrays *)

Lemma uninitialised_spec (n : nat) (h : heap) :
  exists junk h', uninitialised n h = Ok (junk, h') /\ length junk = n.
Proof.
  eexists _, _. split; [reflexivity|]. by rewrite length_map, length_seq.
Qed.

Lemma np_empty_spec (n : Z) (h : heap) :
  (0 <= n)%Z ->
  exists junk h', np_empty n h = Ok (junk, h') /\ length junk = Z.to_nat n.
Proof.
  intros Hn. unfold np_empty. case_decide; [lia|].
  destruct (uninitialised_spec (Z.to_nat n) h) as (cells & h' & Hc & Hlen).
  exists (map (fun c => Complex c.1 c.2) cells), h'. split.
  - unfold mbind, M_bind. by rewrite Hc.
  - by rewrite length_map.
Qed.

Lemma np_empty_negative (n : Z) (h : heap) :
  (n < 0)%Z -> np_empty n h = Raise ValueError.
Proof. intros Hn. unfold np_empty. by case_decide; [|lia]. Qed.

Lemma length_one_inv {A} (l : list A) : length l = 1%nat -> exists x, l = [x].
Proof. destruct l as [|x [|y l]]; intros H; try discriminate. by exists x. Qed.

(** ** The linearizer *)

Lemma linearize_curve_ok (start end_ : complex) (len : Qc) (point : Qc -> complex)
    (q : Qc) (step : Z) (h : heap) :
  curve_step len q = Ok step ->
  (0 <= step)%Z ->
  exists h', linearize q (Curve start end_ len point) h
             = Ok (curve_points start end_ point step, h').
Proof.
  intros Hstep Hpos. unfold linearize. rewrite Hstep.
  destruct (np_empty_spec (step + 1) h) as (junk & h' & Hj & Hlen); [lia|].
  exists h'. bind_step. simpl lift. cbv beta iota.
  bind_step. rewrite Hj.
  destruct junk as [|j0 tail]; [simpl in Hlen; lia|].
  bind_step. rewrite setitem_head. simpl lift. cbv beta iota.
  bind_step. unfold range, curve_points.
  case_decide as Hz.
  - subst step. destruct tail; [|simpl in Hlen; lia]. reflexivity.
  - replace (step - 1)%Z with (Z.of_nat (Z.to_nat (step - 1))) by lia.
    change (start :: tail) with ([start] ++ tail).
    rewrite (fill_loop point step (Z.to_nat (step - 1)) 0 [start] tail h')
      by (simpl in *; lia).
    destruct (length_one_inv (drop (Z.to_nat (step - 1)) tail)) as [x ->].
    { rewrite length_drop. simpl in Hlen. lia. }
    simpl lift. by rewrite app_comm_cons, setitem_last.
Qed.

Lemma linearize_computes (q : Qc) (elem : segment) :
  computes (linearize q elem) (linearize_value q elem).
Proof.
  destruct elem as [start end_|start end_ len point].
  - apply computes_ret.
  - intros h. unfold linearize_value.
    destruct (curve_step len q) as [step|e] eqn:Hstep; simpl.
    + case_decide as Hneg.
      * unfold linearize. rewrite Hstep. bind_step. simpl lift. cbv beta iota.
        bind_step. by rewrite np_empty_negative.
      * case_decide as Hzero.
        -- assert (step = -1)%Z as -> by lia.
           unfold linearize. by rewrite Hstep.
        -- apply linearize_curve_ok; [done | lia].
    + unfold linearize. by rewrite Hstep.
Qed.

(** ** The scaler *)

Lemma set_columns (t : transform) (coords : list complex) :
  forall junk : list (Qc * Qc),
    length junk = length coords ->
    zip_with (fun r y => (r.1, y))
      (zip_with (fun r x => (x, r.2)) junk
         (map (fun x => scale_x t * (x + offset_x t)) (column0 (view_float coords))))
      (map (fun y => scale_y t * (y + offset_y t)) (column1 (view_float coords)))
    = map (scale_point t) coords.
Proof.
  induction coords as [|c coords IH]; intros [|j junk] Hlen; try done.
  simpl in *. f_equal. apply IH. lia.
Qed.

Lemma scale_coords_computes (t : transform) (coords : list complex) :
  computes (scale_coords t coords) (Ok (map (scale_point t) coords)).
Proof.
  intros h. unfold scale_coords, np_empty_like.
  destruct (uninitialised_spec (length (view_float coords)) h)
    as (junk & h' & Hj & Hlen).
  unfold view_float in Hlen at 1. rewrite length_map in Hlen.
  exists h'. bind_step. rewrite Hj.
  unfold set_column0, set_column1, column0, column1, view_float.
  rewrite !length_map. rewrite decide_True by done. simpl lift.
  bind_step. simpl lift. cbv beta iota.
  rewrite length_zip_with, !length_map, Hlen, Nat.min_id.
  rewrite decide_True by done.
  unfold mbind, M_bind, mret, M_ret. simpl lift. cbv beta iota.
  do 2 f_equal. by apply set_columns.
Qed.

(** ** One segment, then all of them *)

Lemma read_segment_computes (t : transform) (q : Qc) (elem : segment)
    (ls_array : list LineString) :
  computes (read_segment t q elem ls_array)
    (ls ← segment_value t q elem; Ok (ls_array ++ [ls])).
Proof.
  unfold read_segment, segment_value. eapply computes_eq.
  - apply computes_bind; [apply linearize_computes|]. intros coords _.
    apply computes_bind; [apply scale_coords_computes|]. intros final_coords _.
    apply computes_bind; [apply computes_lift|]. intros ls _.
    apply computes_ret.
  - by destruct (linearize_value q elem).
Qed.

Lemma for_each_segment_computes (t : transform) (q : Qc) (elems : list segment) :
  forall ls_array,
    computes (for_each elems (read_segment t q) ls_array)
      (ls ← comprehension (segment_value t q) elems; Ok (ls_array ++ ls)).
Proof.
  induction elems as [|elem elems IH]; intros ls_array.
  - simpl. rewrite app_nil_r. apply computes_ret.
  - eapply computes_eq.
    + apply computes_bind; [apply read_segment_computes|].
      intros a _. apply IH.
    + simpl. destruct (segment_value t q elem) as [ls|e]; simpl; [|done].
      destruct (comprehension (segment_value t q) elems) as [rest|e]; simpl; [|done].
      by rewrite <- app_assoc.
Qed.

Lemma comprehension_app {A B} (f : A -> result B) (l1 l2 : list A) :
  comprehension f (l1 ++ l2)
  = (b1 ← comprehension f l1; b2 ← comprehension f l2; Ok (b1 ++ b2)).
Proof.
  induction l1 as [|a l1 IH]; simpl.
  - by destruct (comprehension f l2).
  - destruct (f a); simpl; [|done]. rewrite IH.
    destruct (comprehension f l1); simpl; [|done].
    by destruct (comprehension f l2).
Qed.

Lemma for_each_path_computes (t : transform) (q : Qc) (results : list FlattenedPath) :
  forall ls_array,
    computes
      (for_each results
         (fun result ls_array => for_each (path result) (read_segment t q) ls_array)
         ls_array)
      (ls ← comprehension (segment_value t q) (concat (map path results));
       Ok (ls_array ++ ls)).
Proof.
  induction results as [|r results IH]; intros ls_array.
  - simpl. rewrite app_nil_r. apply computes_ret.
  - eapply computes_eq.
    + apply computes_bind; [apply for_each_segment_computes|].
      intros a _. apply IH.
    + simpl. rewrite comprehension_app.
      destruct (comprehension (segment_value t q) (path r)) as [ls1|e]; simpl; [|done].
      destruct (comprehension (segment_value t q) (concat (map path results)))
        as [ls2|e]; simpl; [|done].
      by rewrite <- app_assoc.
Qed.

Section ReadProofs.

Variable convert : string -> result Qc.
Variable py_float : string -> result Qc.

Lemma read_computes (doc : Document) (q : Qc) :
  computes (read convert py_float doc q) (read_value convert py_float doc q).
Proof.
  unfold read, read_value.
  apply computes_bind; [apply computes_lift|]. intros t _.
  eapply computes_eq.
  - apply computes_bind; [apply for_each_path_computes|].
    intros ls _. apply computes_ret.
  - fold (segments doc).
    by destruct (comprehension (segment_value t q) (segments doc)).
Qed.

End ReadProofs.

(** ** The quotient [length / quantization] and its ceiling *)

Lemma Qcdiv_pos (a b : Qc) : 0 < a -> 0 < b -> 0 < a / b.
Proof.
  unfold Qclt, Qcdiv, Qcmult, Qcinv. simpl. intros Ha Hb.
  rewrite !Qred_correct.
  apply Qmult_lt_0_compat; [done|]. by apply Qinv_lt_0_compat.
Qed.

Lemma Qcdiv_nonneg (a b : Qc) : 0 <= a -> 0 < b -> 0 <= a / b.
Proof.
  intros Ha Hb. destruct (Qcle_lt_or_eq _ _ Ha) as [Hlt| <-].
  - apply Qclt_le_weak. by apply Qcdiv_pos.
  - unfold Qcdiv. by rewrite Qcmult_0_l.
Qed.

Lemma math_ceil_pos (x : Qc) : 0 < x -> (1 <= math_ceil x)%Z.
Proof.
  unfold math_ceil, Qclt. simpl. intros Hx.
  pose proof (Qle_ceiling x) as Hc.
  assert (0 < inject_Z (Qceiling x))%Q as H by (eapply Qlt_le_trans; eauto).
  unfold Qlt in H. simpl in H. lia.
Qed.

Lemma math_ceil_nonneg (x : Qc) : 0 <= x -> (0 <= math_ceil x)%Z.
Proof.
  unfold math_ceil, Qcle. simpl. intros Hx.
  pose proof (Qle_ceiling x) as Hc.
  assert (0 <= inject_Z (Qceiling x))%Q as H by (eapply Qle_trans; eauto).
  unfold Qle in H. simpl in H. lia.
Qed.

Lemma curve_step_defined (len q : Qc) :
  0 < q -> curve_step len q = Ok (math_ceil (len / q)).
Proof.
  intros Hq. unfold curve_step, truediv.
  case_decide as H; [|done]. subst q. by apply Qclt_not_eq in Hq.
Qed.

Lemma length_curve_points (start end_ : complex) (point : Qc -> complex) (step : Z) :
  (0 <= step)%Z ->
  Z.of_nat (length (curve_points start end_ point step)) = (step + 1)%Z.
Proof.
  intros Hs. unfold curve_points. case_decide as Hz; [by subst|].
  simpl. rewrite length_app, length_map, length_seqZ. simpl. lia.
Qed.

(** A curve of non-negative length, cut at a positive quantization. *)
Lemma linearize_curve_total (start end_ : complex) (len : Qc) (point : Qc -> complex)
    (q : Qc) (h : heap) :
  0 < q -> 0 <= len ->
  exists h', linearize q (Curve start end_ len point) h
             = Ok (curve_points start end_ point (math_ceil (len / q)), h').
Proof.
  intros Hq Hlen. apply linearize_curve_ok.
  - by apply curve_step_defined.
  - apply math_ceil_nonneg. by apply Qcdiv_nonneg.
Qed.

(** ** The transform: what the code computes *)

Section TransformProofs.

Variable convert : string -> result Qc.
Variable py_float : string -> result Qc.

Lemma viewbox_transform_parsed (attrib : gmap string string) (sw sh sv : string)
    (w h a b c d : Qc) :
  attrib !! "viewBox"%string = Some sv ->
  attrib !! "width"%string = Some sw ->
  attrib !! "height"%string = Some sh ->
  convert sw = Ok w ->
  convert sh = Ok h ->
  comprehension py_float (split sv) = Ok [a; b; c; d] ->
  viewbox_transform convert py_float attrib
  = (sx ← truediv w (c - a);
     sy ← truediv h (d - b);
     Ok {| scale_x := sx; scale_y := sy; offset_x := - a; offset_y := - b |}).
Proof.
  intros Hv Hw Hh Hcw Hch Hvb. unfold viewbox_transform, dict_getitem.
  rewrite decide_True by (rewrite Hv; eauto).
  rewrite Hw, Hh, Hv. simpl. rewrite Hcw. simpl. rewrite Hch. simpl.
  rewrite Hvb. reflexivity.
Qed.

Lemma viewbox_transform_absent (attrib : gmap string string) :
  attrib !! "viewBox"%string = None ->
  viewbox_transform convert py_float attrib
  = Ok {| scale_x := 1; scale_y := 1; offset_x := 0; offset_y := 0 |}.
Proof.
  intros Hv. unfold viewbox_transform. rewrite decide_False; [done|].
  rewrite Hv. by intros [? ?].
Qed.

(** With [minX = minY = 0] the code and the specification's wording agree. *)
Lemma viewbox_transform_at_origin (attrib : gmap string string) (sw sh sv : string)
    (w h c d : Qc) :
  attrib !! "viewBox"%string = Some sv ->
  attrib !! "width"%string = Some sw ->
  attrib !! "height"%string = Some sh ->
  convert sw = Ok w ->
  convert sh = Ok h ->
  comprehension py_float (split sv) = Ok [0; 0; c; d] ->
  viewbox_transform convert py_float attrib = spec_transform w h 0 0 c d.
Proof.
  intros Hv Hw Hh Hcw Hch Hvb.
  rewrite (viewbox_transform_parsed attrib sw sh sv w h 0 0 c d) by done.
  unfold spec_transform.
  replace (c - 0) with c by ring. by replace (d - 0) with d by ring.
Qed.

(** X2: with [width], [height] and four [viewBox] numbers [a b c d] read,
    the division faults exactly when a difference is zero: [c = a] or
    [d = b]. *)
Lemma viewbox_transform_fault_iff (attrib : gmap string string) (sw sh sv : string)
    (w h a b c d : Qc) :
  attrib !! "viewBox"%string = Some sv ->
  attrib !! "width"%string = Some sw ->
  attrib !! "height"%string = Some sh ->
  convert sw = Ok w ->
  convert sh = Ok h ->
  comprehension py_float (split sv) = Ok [a; b; c; d] ->
  viewbox_transform convert py_float attrib = Raise ZeroDivisionError
  <-> c = a \/ d = b.
Proof.
  intros Hv Hw Hh Hcw Hch Hvb.
  rewrite (viewbox_transform_parsed attrib sw sh sv w h a b c d) by done.
  assert (forall x y : Qc, x - y = 0 <-> x = y) as Hsub.
  { intros x y. split; intros H.
    - replace x with ((x - y) + y) by ring. rewrite H. ring.
    - subst. ring. }
  unfold truediv.
  destruct (decide (c - a = 0)) as [Hx|Hx]; simpl.
  - split; [intros _; left; by apply Hsub | done].
  - destruct (decide (d - b = 0)) as [Hy|Hy]; simpl.
    + split; [intros _; right; by apply Hsub | done].
    + split; [done|]. intros [-> | ->]; [destruct Hx | destruct Hy]; ring.
Qed.

End TransformProofs.

(** The specification's scale example, on the code. *)
Example viewbox_scale_example :
  viewbox_transform decimal_literal decimal_literal attrib_scaled
  = Ok {| scale_x := of_int 1 / of_int 2; scale_y := of_int 1 / of_int 2;
          offset_x := 0; offset_y := 0 |}.
Proof. compute_done. Qed.

(** C1 (code departs from the claim): on [width="100" height="100"
    viewBox="10 10 100 100"] the code divides the size by the differences
    [100 - 10], so both scales are 10/9, where the claim's [w / vbWidth] and
    [h / vbHeight] are 1; the offsets are [-minX] and [-minY] on both sides. *)
Theorem viewbox_scale_divides_by_difference :
  viewbox_transform decimal_literal decimal_literal attrib_offset
  = Ok {| scale_x := of_int 10 / of_int 9; scale_y := of_int 10 / of_int 9;
          offset_x := - of_int 10; offset_y := - of_int 10 |}
  /\ spec_transform (of_int 100) (of_int 100)
       (of_int 10) (of_int 10) (of_int 100) (of_int 100)
     = Ok {| scale_x := 1; scale_y := 1;
             offset_x := - of_int 10; offset_y := - of_int 10 |}
  /\ viewbox_transform decimal_literal decimal_literal attrib_offset
     <> spec_transform (of_int 100) (of_int 100)
          (of_int 10) (of_int 10) (of_int 100) (of_int 100).
Proof. repeat split; compute_done. Qed.

(** C2 (code departs from the claim): the fault is raised when the third
    number equals the first or the fourth the second.  On
    [viewBox="10 10 10 10"] the code raises [ZeroDivisionError] although
    [vbWidth] and [vbHeight] are 10; on [viewBox="10 10 0 0"] it raises
    nothing and scales by [100 / (0 - 10)] although both are zero.  The
    fault, when raised, ends the command. *)
Theorem viewbox_fault_on_equal_numbers :
  (viewbox_transform decimal_literal decimal_literal attrib_square
   = Raise ZeroDivisionError
   /\ spec_transform (of_int 100) (of_int 100)
        (of_int 10) (of_int 10) (of_int 10) (of_int 10)
      = Ok {| scale_x := of_int 10; scale_y := of_int 10;
              offset_x := - of_int 10; offset_y := - of_int 10 |})
  /\ (viewbox_transform decimal_literal decimal_literal attrib_empty_box
      = Ok {| scale_x := - of_int 10; scale_y := - of_int 10;
              offset_x := - of_int 10; offset_y := - of_int 10 |}
      /\ spec_transform (of_int 100) (of_int 100)
           (of_int 10) (of_int 10) (of_int 0) (of_int 0)
         = Raise ZeroDivisionError)
  /\ run (read decimal_literal decimal_literal doc_square (of_int 2)) dirty
     = Raise ZeroDivisionError.
Proof. repeat split; compute_done. Qed.

(** ** The linearizer: steps and point counts *)

Lemma lookup_curve_points_first (start end_ : complex) (point : Qc -> complex)
    (step : Z) :
  (1 <= step)%Z -> curve_points start end_ point step !! 0%nat = Some start.
Proof. intros Hs. unfold curve_points. by rewrite decide_False by lia. Qed.

Lemma last_curve_points (start end_ : complex) (point : Qc -> complex) (step : Z) :
  last (curve_points start end_ point step) = Some end_.
Proof.
  unfold curve_points. case_decide; [done|].
  by rewrite app_comm_cons, last_snoc.
Qed.

Lemma lookup_curve_points_last (start end_ : complex) (point : Qc -> complex)
    (step : Z) :
  (0 <= step)%Z ->
  curve_points start end_ point step !! Z.to_nat step = Some end_.
Proof.
  intros Hs. unfold curve_points. case_decide as Hz; [by subst|].
  rewrite app_comm_cons. rewrite lookup_app_r.
  - simpl. rewrite length_map, length_seqZ.
    by replace (Z.to_nat step - S (Z.to_nat (step - 1)))%nat with 0%nat by lia.
  - simpl. rewrite length_map, length_seqZ. lia.
Qed.

Lemma lookup_curve_points_inner (start end_ : complex) (point : Qc -> complex)
    (step i : Z) :
  (1 <= i <= step - 1)%Z ->
  curve_points start end_ point step !! Z.to_nat i
  = Some (point (of_int i / of_int step)).
Proof.
  intros Hi. unfold curve_points. rewrite decide_False by lia.
  replace (Z.to_nat i) with (S (Z.to_nat (i - 1))) by lia.
  rewrite lookup_cons_ne_0 by done. simpl Init.Nat.pred.
  rewrite lookup_app_l by (rewrite length_map, length_seqZ; lia).
  rewrite list_lookup_fmap. rewrite lookup_seqZ_lt by lia. simpl.
  do 4 f_equal. lia.
Qed.

(** C3 (code departs from the claim): a curve without length, read at the
    positive quantization 1, has step 0: the linearizer fills an array of one
    cell, where a line, degenerate or not, gives two points, and building the
    [LineString] of line 82 from that single point ends the command with a
    [ValueError]. *)
Theorem zero_length_curve_breaks_read :
  0 < 1
  /\ curve_step 0 1 = Ok 0%Z
  /\ run (linearize 1 dot) dirty = Ok [origin]
  /\ run (linearize 1 (Line origin origin)) dirty = Ok [origin; origin]
  /\ run (read decimal_literal decimal_literal doc_dot 1) dirty = Raise ValueError.
Proof. split; [reflexivity|]. repeat split; compute_done. Qed.

(** C4: a line yields exactly its two end points whatever the quantization;
    a curve of length [len >= 0] cut at [q > 0] yields exactly
    [ceil(len / q) + 1] points. *)
Theorem linearize_point_count (start end_ : complex) (q : Qc) (h : heap) :
  (exists h', linearize q (Line start end_) h = Ok ([start; end_], h'))
  /\ (forall len point, 0 < q -> 0 <= len ->
        exists pts h',
          linearize q (Curve start end_ len point) h = Ok (pts, h')
          /\ Z.of_nat (length pts) = (math_ceil (len / q) + 1)%Z).
Proof.
  split; [by exists h|].
  intros len point Hq Hlen.
  destruct (linearize_curve_total start end_ len point q h Hq Hlen) as [h' Hl].
  eexists _, h'. split; [exact Hl|].
  apply length_curve_points, math_ceil_nonneg. by apply Qcdiv_nonneg.
Qed.

Lemma linearize_point_count_witness :
  exists pts h',
    linearize (of_int 2) chord dirty = Ok (pts, h')
    /\ Z.of_nat (length pts) = (math_ceil (of_int 5 / of_int 2) + 1)%Z.
Proof.
  apply (linearize_point_count origin (pt 3 4) (of_int 2) dirty).
  - reflexivity.
  - discriminate.
Defined.

(** C5: for a curve of length [len >= 0] cut at [q > 0], with
    [step = ceil(len / q)]: the first point is the start, the last point is
    the end, the point at each index [i] of [1 .. step - 1] is the curve at
    the fraction [i / step], and for [step = 1] the two end points are all.
    A curve without length is a single point: its start is its end. *)
Theorem curve_even_subdivision (start end_ : complex) (len : Qc)
    (point : Qc -> complex) (q : Qc) (h : heap) :
  0 < q -> 0 <= len -> (len = 0 -> start = end_) ->
  exists pts h',
    linearize q (Curve start end_ len point) h = Ok (pts, h')
    /\ let step := math_ceil (len / q) in
       pts !! 0%nat = Some start
       /\ last pts = Some end_
       /\ pts !! Z.to_nat step = Some end_
       /\ (forall i, (1 <= i <= step - 1)%Z ->
             pts !! Z.to_nat i = Some (point (of_int i / of_int step)))
       /\ (step = 1%Z -> pts = [start; end_]).
Proof.
  intros Hq Hlen Hdot.
  destruct (linearize_curve_total start end_ len point q h Hq Hlen) as [h' Hl].
  eexists _, h'. split; [exact Hl|]. cbv zeta.
  assert (0 <= math_ceil (len / q))%Z as Hstep
    by (apply math_ceil_nonneg; by apply Qcdiv_nonneg).
  repeat split.
  - destruct (Qcle_lt_or_eq _ _ Hlen) as [Hpos|Hzero].
    + apply lookup_curve_points_first, math_ceil_pos. by apply Qcdiv_pos.
    + rewrite <- Hzero in *. rewrite (Hdot eq_refl).
      unfold Qcdiv. rewrite Qcmult_0_l. reflexivity.
  - apply last_curve_points.
  - by apply lookup_curve_points_last.
  - intros i Hi. by apply lookup_curve_points_inner.
  - intros ->. reflexivity.
Qed.

Lemma curve_even_subdivision_witness :
  exists pts h',
    linearize (of_int 2) chord dirty = Ok (pts, h')
    /\ let step := math_ceil (of_int 5 / of_int 2) in
       pts !! 0%nat = Some origin
       /\ last pts = Some (pt 3 4)
       /\ pts !! Z.to_nat step = Some (pt 3 4)
       /\ (forall i, (1 <= i <= step - 1)%Z ->
             pts !! Z.to_nat i
             = Some (Complex (of_int 3 * (of_int i / of_int step))
                             (of_int 4 * (of_int i / of_int step))))
       /\ (step = 1%Z -> pts = [origin; pt 3 4]).
Proof.
  apply (curve_even_subdivision origin (pt 3 4) (of_int 5)
           (fun t => Complex (of_int 3 * t) (of_int 4 * t)) (of_int 2) dirty).
  - reflexivity.
  - discriminate.
  - discriminate.
Defined.

(** ** The whole command *)

Lemma run_Ok_inv {A} (m : M A) (h : heap) (a : A) :
  run m h = Ok a -> exists h', m h = Ok (a, h').
Proof.
  unfold run. destruct (m h) as [[a' h']|e]; [|done].
  intros [= ->]. by exists h'.
Qed.

Lemma comprehension_Forall2 {A B} (f : A -> result B) (l : list A) (bs : list B) :
  comprehension f l = Ok bs -> Forall2 (fun a b => f a = Ok b) l bs.
Proof.
  revert bs. induction l as [|a l IH]; intros bs; simpl.
  - intros [= <-]. constructor.
  - destruct (f a) as [b|e] eqn:Hf; simpl; [|done].
    destruct (comprehension f l) as [bs'|e]; simpl; [|done].
    intros [= <-]. constructor; [done | by apply IH].
Qed.

Lemma comprehension_total {A B} (f : A -> result B) (l : list A) :
  Forall (fun a => exists b, f a = Ok b) l ->
  exists bs, comprehension f l = Ok bs /\ length bs = length l.
Proof.
  induction 1 as [|a l [b Hb] _ (bs & Hbs & Hlen)]; simpl.
  - by exists [].
  - exists (b :: bs). rewrite Hb, Hbs. simpl. by rewrite Hlen.
Qed.

Lemma segment_value_Ok_inv (t : transform) (q : Qc) (elem : segment) (ls : LineString) :
  segment_value t q elem = Ok ls ->
  exists raw, linearize_value q elem = Ok raw
              /\ ls = {| coords_of := map (scale_point t) raw |}.
Proof.
  unfold segment_value, new_LineString.
  destruct (linearize_value q elem) as [raw|e]; [|done].
  simpl. case_decide; [done|]. intros [= <-]. by exists raw.
Qed.

Lemma segment_value_total (t : transform) (q : Qc) (elem : segment) :
  0 < q -> length_pos elem -> exists ls, segment_value t q elem = Ok ls.
Proof.
  intros Hq Hlen. unfold segment_value, new_LineString.
  destruct elem as [start end_|start end_ len point]; simpl in *.
  - by eexists.
  - rewrite curve_step_defined by done. unfold mbind, result_bind.
    pose proof (math_ceil_pos (len / q) (Qcdiv_pos _ _ Hlen Hq)) as Hstep.
    pose proof (length_curve_points start end_ point (math_ceil (len / q))) as Hn.
    rewrite (decide_False (P := (math_ceil (len / q) + 1 < 0)%Z)) by lia.
    rewrite (decide_False (P := (math_ceil (len / q) + 1 = 0)%Z)) by lia.
    unfold mbind, result_bind.
    rewrite decide_False by (rewrite length_map; lia). by eexists.
Qed.

Lemma scale_point_identity (c : complex) :
  scale_point {| scale_x := 1; scale_y := 1; offset_x := 0; offset_y := 0 |} c
  = (re c, im c).
Proof. unfold scale_point. simpl. f_equal; ring. Qed.

Section CommandProofs.

Variable convert : string -> result Qc.
Variable py_float : string -> result Qc.

Lemma read_Ok_inv (doc : Document) (q : Qc) (h : heap) (out : MultiLineString) :
  run (read convert py_float doc q) h = Ok out ->
  exists t,
    viewbox_transform convert py_float (root_attrib doc) = Ok t
    /\ Forall2 (fun elem ls => segment_value t q elem = Ok ls)
         (segments doc) (geoms out).
Proof.
  rewrite (computes_run _ _ h (read_computes convert py_float doc q)).
  unfold read_value.
  destruct (viewbox_transform convert py_float (root_attrib doc)) as [t|e]; [|done].
  simpl. destruct (comprehension (segment_value t q) (segments doc)) as [ls|e] eqn:Hc;
    [|done].
  simpl. intros [= <-]. exists t. split; [done|]. by apply comprehension_Forall2.
Qed.

(** C6: each scale step maps the raw point [(x, y)] to
    [(scale_x * (x + offset_x), scale_y * (y + offset_y))], and in the output
    of the command every polyline is the linearized segment with every point
    mapped so, under the transform resolved from the root. *)
Theorem every_point_scaled (doc : Document) (q : Qc) (h : heap) :
  (forall t coords,
     run (scale_coords t coords) h
     = Ok (map (fun c => (scale_x t * (re c + offset_x t),
                          scale_y t * (im c + offset_y t))) coords))
  /\ (forall out,
        run (read convert py_float doc q) h = Ok out ->
        exists t,
          viewbox_transform convert py_float (root_attrib doc) = Ok t
          /\ Forall2
               (fun elem ls =>
                  exists raw,
                    (forall h0, run (linearize q elem) h0 = Ok raw)
                    /\ coords_of ls
                       = map (fun c => (scale_x t * (re c + offset_x t),
                                        scale_y t * (im c + offset_y t))) raw)
               (segments doc) (geoms out)).
Proof.
  split.
  - intros t coords. apply computes_run, scale_coords_computes.
  - intros out Hrun. destruct (read_Ok_inv doc q h out Hrun) as (t & Ht & Hall).
    exists t. split; [done|].
    eapply Forall2_impl; [exact Hall|]. intros elem ls Hseg. simpl in Hseg.
    destruct (segment_value_Ok_inv t q elem ls Hseg) as (raw & Hraw & ->).
    exists raw. split; [|done].
    intros h0. rewrite <- Hraw. apply computes_run, linearize_computes.
Qed.

(** C7: a root without [viewBox] resolves to scale 1 and offset 0, and every
    polyline of the output is its linearized segment, point for point. *)
Theorem no_viewbox_identity (doc : Document) (q : Qc) (h : heap) :
  root_attrib doc !! "viewBox"%string = None ->
  viewbox_transform convert py_float (root_attrib doc)
  = Ok {| scale_x := 1; scale_y := 1; offset_x := 0; offset_y := 0 |}
  /\ (forall out,
        run (read convert py_float doc q) h = Ok out ->
        Forall2
          (fun elem ls =>
             exists raw,
               (forall h0, run (linearize q elem) h0 = Ok raw)
               /\ coords_of ls = map (fun c => (re c, im c)) raw)
          (segments doc) (geoms out)).
Proof.
  intros Hv. pose proof (viewbox_transform_absent convert py_float _ Hv) as Hid.
  split; [done|].
  intros out Hrun. destruct (read_Ok_inv doc q h out Hrun) as (t & Ht & Hall).
  rewrite Hid in Ht. injection Ht as <-.
  eapply Forall2_impl; [exact Hall|]. intros elem ls Hseg. simpl in Hseg.
  destruct (segment_value_Ok_inv _ q elem ls Hseg) as (raw & Hraw & ->).
  exists raw. split.
  - intros h0. rewrite <- Hraw. apply computes_run, linearize_computes.
  - simpl. apply map_ext. intros c. apply scale_point_identity.
Qed.

(** C8: once the transform is resolved, the output holds the polyline of each
    segment, one per segment and in the order of the traversal; with a
    positive quantization and curves of positive length the command does
    return; and a document without segments yields the empty collection. *)
Theorem one_polyline_per_segment (doc : Document) (q : Qc) (h : heap) (t : transform) :
  viewbox_transform convert py_float (root_attrib doc) = Ok t ->
  (forall out,
     run (read convert py_float doc q) h = Ok out ->
     length (geoms out) = length (segments doc)
     /\ Forall2
          (fun elem ls =>
             forall ls_array h0,
               run (read_segment t q elem ls_array) h0 = Ok (ls_array ++ [ls]))
          (segments doc) (geoms out))
  /\ (0 < q -> Forall length_pos (segments doc) ->
      exists out,
        run (read convert py_float doc q) h = Ok out
        /\ length (geoms out) = length (segments doc))
  /\ (segments doc = [] ->
      run (read convert py_float doc q) h = Ok {| geoms := [] |}).
Proof.
  intros Ht. split; [|split].
  - intros out Hrun. destruct (read_Ok_inv doc q h out Hrun) as (t' & Ht' & Hall).
    rewrite Ht in Ht'. injection Ht' as <-.
    split; [symmetry; by eapply Forall2_length|].
    eapply Forall2_impl; [exact Hall|]. intros elem ls Hseg ls_array h0.
    simpl in Hseg.
    rewrite (computes_run _ _ h0 (read_segment_computes t q elem ls_array)).
    by rewrite Hseg.
  - intros Hq Hsegs.
    destruct (comprehension_total (segment_value t q) (segments doc))
      as (ls & Hls & Hlen).
    { eapply Forall_impl; [exact Hsegs|]. intros elem Helem. simpl.
      by apply segment_value_total. }
    exists {| geoms := ls |}. split; [|done].
    rewrite (computes_run _ _ h (read_computes convert py_float doc q)).
    unfold read_value. rewrite Ht. simpl. by rewrite Hls.
  - intros Hnone.
    rewrite (computes_run _ _ h (read_computes convert py_float doc q)).
    unfold read_value. rewrite Ht, Hnone. reflexivity.
Qed.

(** C9: the output of the command is a function of the document and the
    quantization alone: whatever the uninitialised arrays held, two runs
    return the same collection, or raise the same exception. *)
Theorem read_deterministic (doc : Document) (q : Qc) (h1 h2 : heap) :
  run (read convert py_float doc q) h1 = run (read convert py_float doc q) h2.
Proof.
  by rewrite !(computes_run _ _ _ (read_computes convert py_float doc q)).
Qed.

(** C10: with a [viewBox] on the root and [width] or [height] missing, the
    command raises and returns no collection; the exception is the lookup's
    [KeyError] for [width] when [width] is missing, and for [height] when
    [width] is there and converts. *)
Theorem viewbox_without_size_raises (doc : Document) (q : Qc) :
  is_Some (root_attrib doc !! "viewBox"%string) ->
  root_attrib doc !! "width"%string = None
  \/ root_attrib doc !! "height"%string = None ->
  (exists e, forall h, read convert py_float doc q h = Raise e)
  /\ (root_attrib doc !! "width"%string = None ->
      forall h, read convert py_float doc q h = Raise (KeyError "width"))
  /\ (forall sw w,
        root_attrib doc !! "width"%string = Some sw -> convert sw = Ok w ->
        forall h, read convert py_float doc q h = Raise (KeyError "height")).
Proof.
  intros Hv Hmiss.
  assert (root_attrib doc !! "width"%string = None ->
          viewbox_transform convert py_float (root_attrib doc)
          = Raise (KeyError "width")) as Hw.
  { intros Hnone. unfold viewbox_transform, dict_getitem.
    rewrite decide_True by done. by rewrite Hnone. }
  assert (forall sw w,
            root_attrib doc !! "width"%string = Some sw -> convert sw = Ok w ->
            root_attrib doc !! "height"%string = None ->
            viewbox_transform convert py_float (root_attrib doc)
            = Raise (KeyError "height")) as Hh.
  { intros sw w Hsome Hconv Hnone. unfold viewbox_transform, dict_getitem.
    rewrite decide_True by done. rewrite Hsome. simpl. rewrite Hconv. simpl.
    by rewrite Hnone. }
  assert (forall e, viewbox_transform convert py_float (root_attrib doc) = Raise e ->
          forall h, read convert py_float doc q h = Raise e) as Hread.
  { intros e He h. unfold read. bind_step. by rewrite He. }
  repeat split.
  - destruct (root_attrib doc !! "width"%string) as [sw|] eqn:Hsw.
    + destruct Hmiss as [?|Hnone]; [done|].
      destruct (convert sw) as [w|e] eqn:Hconv.
      * exists (KeyError "height"). apply Hread. by eapply Hh.
      * exists e. apply Hread. unfold viewbox_transform, dict_getitem.
        rewrite decide_True by done. rewrite Hsw. simpl. by rewrite Hconv.
    + exists (KeyError "width"). apply Hread. by apply Hw.
  - intros Hnone. apply Hread. by apply Hw.
  - intros sw w Hsome Hconv. apply Hread. destruct Hmiss as [Hnone|Hnone].
    + congruence.
    + by eapply Hh.
Qed.

End CommandProofs.

(** ** The command on the sample documents *)

Example read_doc_plain :
  run (read decimal_literal decimal_literal doc_plain (of_int 2)) dirty = Ok out_plain.
Proof. compute_done. Qed.

Example read_doc_scaled :
  run (read decimal_literal decimal_literal doc_scaled (of_int 2)) dirty = Ok out_scaled.
Proof. compute_done. Qed.

(** A line is its two end points at any quantization, zero included. *)
Example read_diagonal_any_quantization :
  run (linearize 0 diagonal) dirty = Ok [origin; pt 10 10]
  /\ run (linearize (of_int 1000) diagonal) dirty = Ok [origin; pt 10 10].
Proof. split; compute_done. Qed.

(** With [viewBox="10 10 100 100"] the raw point (10,10) lands on (0,0). *)
Example offset_example :
  (t ← viewbox_transform decimal_literal decimal_literal attrib_offset;
   Ok (scale_point t (pt 10 10)))
  = Ok (0, 0).
Proof. compute_done. Qed.

Example read_doc_text_only :
  run (read decimal_literal decimal_literal doc_text_only (of_int 2)) dirty
  = Ok {| geoms := [] |}.
Proof. compute_done. Qed.

(** A fresh array shows the memory it was cut from. *)
Example np_empty_shows_memory :
  run (np_empty 1) zeroed <> run (np_empty 1) dirty.
Proof. compute_done. Qed.

(** ** The claims on the sample documents *)

Lemma every_point_scaled_witness :
  exists t,
    viewbox_transform decimal_literal decimal_literal (root_attrib doc_scaled) = Ok t
    /\ Forall2
         (fun elem ls =>
            exists raw,
              (forall h0, run (linearize (of_int 2) elem) h0 = Ok raw)
              /\ coords_of ls
                 = map (fun c => (scale_x t * (re c + offset_x t),
                                  scale_y t * (im c + offset_y t))) raw)
         (segments doc_scaled) (geoms out_scaled).
Proof.
  apply (every_point_scaled decimal_literal decimal_literal doc_scaled (of_int 2) dirty).
  compute_done.
Defined.

Lemma no_viewbox_identity_witness :
  viewbox_transform decimal_literal decimal_literal (root_attrib doc_plain)
  = Ok {| scale_x := 1; scale_y := 1; offset_x := 0; offset_y := 0 |}
  /\ Forall2
       (fun elem ls =>
          exists raw,
            (forall h0, run (linearize (of_int 2) elem) h0 = Ok raw)
            /\ coords_of ls = map (fun c => (re c, im c)) raw)
       (segments doc_plain) (geoms out_plain).
Proof.
  destruct (no_viewbox_identity decimal_literal decimal_literal doc_plain (of_int 2)
              dirty) as [Hid Hout].
  - reflexivity.
  - split; [exact Hid|]. apply Hout. compute_done.
Defined.

Lemma one_polyline_per_segment_witness :
  ((length (geoms out_scaled) = length (segments doc_scaled)
    /\ Forall2
         (fun elem ls =>
            forall ls_array h0,
              run (read_segment
                     {| scale_x := frac 1 2; scale_y := frac 1 2;
                        offset_x := 0; offset_y := 0 |}
                     (of_int 2) elem ls_array) h0
              = Ok (ls_array ++ [ls]))
         (segments doc_scaled) (geoms out_scaled))
   /\ exists out,
        run (read decimal_literal decimal_literal doc_scaled (of_int 2)) dirty = Ok out
        /\ length (geoms out) = length (segments doc_scaled))
  /\ run (read decimal_literal decimal_literal doc_text_only (of_int 2)) dirty
     = Ok {| geoms := [] |}.
Proof.
  split.
  - destruct (one_polyline_per_segment decimal_literal decimal_literal doc_scaled
                (of_int 2) dirty
                {| scale_x := frac 1 2; scale_y := frac 1 2;
                   offset_x := 0; offset_y := 0 |})
      as (Hall & Htotal & _).
    + compute_done.
    + split.
      * apply Hall. compute_done.
      * apply Htotal; [reflexivity|].
        repeat constructor.
  - destruct (one_polyline_per_segment decimal_literal decimal_literal doc_text_only
                (of_int 2) dirty
                {| scale_x := frac 1 2; scale_y := frac 1 2;
                   offset_x := 0; offset_y := 0 |})
      as (_ & _ & Hnone).
    + compute_done.
    + apply Hnone. reflexivity.
Defined.

Lemma viewbox_without_size_raises_witness :
  (forall h, read decimal_literal decimal_literal doc_no_width (of_int 2) h
             = Raise (KeyError "width"))
  /\ (forall h, read decimal_literal decimal_literal doc_no_height (of_int 2) h
                = Raise (KeyError "height")).
Proof.
  split.
  - destruct (viewbox_without_size_raises decimal_literal decimal_literal
                doc_no_width (of_int 2)) as (_ & Hw & _).
    + compute_done.
    + left. reflexivity.
    + apply Hw. reflexivity.
  - destruct (viewbox_without_size_raises decimal_literal decimal_literal
                doc_no_height (of_int 2)) as (_ & _ & Hh).
    + compute_done.
    + right. reflexivity.
    + apply (Hh "100"%string (of_int 100)); [reflexivity | compute_done].
Defined.

(** * Further properties of the command *)

(** ** Shared steps *)

Lemma split_go_blank (s : string) : blank s = true -> split_go [] s = [].
Proof.
  induction s as [|a s IH]; simpl; [done|].
  intros [Ha Hs]%andb_prop. rewrite Ha. simpl. by apply IH.
Qed.

Lemma getitem_nonneg {A} (l : list A) (i : Z) :
  (0 <= i)%Z ->
  getitem l i = match l !! Z.to_nat i with Some x => Ok x | None => Raise IndexError end.
Proof.
  intros Hi. unfold getitem, py_index. case_decide as Hlt; [done|].
  rewrite decide_False by lia.
  by rewrite (proj2 (lookup_ge_None l (Z.to_nat i))) by lia.
Qed.

Lemma Qcminus_neq_0 (x y : Qc) : x <> y -> x - y <> 0.
Proof.
  intros Hne H0. apply Hne.
  replace x with ((x - y) + y) by ring. rewrite H0. ring.
Qed.

Lemma truediv_defined (a b : Qc) : b <> 0 -> truediv a b = Ok (a / b).
Proof. intros Hb. unfold truediv. by rewrite decide_False. Qed.

Lemma comprehension_first_failure {A B} (f : A -> result B) (e : exn)
    (pre : list A) (a : A) (post : list A) :
  Forall (fun x => exists b, f x = Ok b) pre ->
  f a = Raise e ->
  comprehension f (pre ++ a :: post) = Raise e.
Proof.
  intros Hpre Ha. induction Hpre as [|x pre [b Hb] _ IH]; simpl.
  - by rewrite Ha.
  - rewrite Hb. simpl. by rewrite IH.
Qed.

Lemma Qcdiv_le_antitone (len q1 q2 : Qc) :
  0 <= len -> 0 < q1 -> q1 <= q2 -> len / q2 <= len / q1.
Proof.
  intros Hlen Hq1 Hq12.
  assert (0 < q2) as Hq2 by (eapply Qclt_le_trans; eauto).
  assert (q1 <> 0) as Hn1 by (intros ->; by apply Qclt_not_eq in Hq1).
  assert (q2 <> 0) as Hn2 by (intros ->; by apply Qclt_not_eq in Hq2).
  apply (Qcmult_lt_0_le_reg_r _ _ (q1 * q2)).
  - rewrite <- (Qcmult_0_l q2). by apply Qcmult_lt_compat_r.
  - replace (len / q2 * (q1 * q2)) with (q1 * len) by (field; done).
    replace (len / q1 * (q1 * q2)) with (q2 * len) by (field; done).
    by apply Qcmult_le_compat_r.
Qed.

Section SharedSteps.

Variable convert : string -> result Qc.
Variable py_float : string -> result Qc.

Lemma viewbox_transform_numbers (attrib : gmap string string) (sw sh sv : string)
    (w h : Qc) (viewbox : list Qc) :
  attrib !! "viewBox"%string = Some sv ->
  attrib !! "width"%string = Some sw ->
  attrib !! "height"%string = Some sh ->
  convert sw = Ok w ->
  convert sh = Ok h ->
  comprehension py_float (split sv) = Ok viewbox ->
  viewbox_transform convert py_float attrib
  = (v2 ← getitem viewbox 2;
     v0 ← getitem viewbox 0;
     sx ← truediv w (v2 - v0);
     v3 ← getitem viewbox 3;
     v1 ← getitem viewbox 1;
     sy ← truediv h (v3 - v1);
     v0' ← getitem viewbox 0;
     v1' ← getitem viewbox 1;
     Ok {| scale_x := sx; scale_y := sy; offset_x := - v0'; offset_y := - v1' |}).
Proof.
  intros Hv Hw Hh Hcw Hch Hvb. unfold viewbox_transform, dict_getitem.
  rewrite decide_True by (rewrite Hv; eauto).
  rewrite Hw, Hh, Hv. simpl. rewrite Hcw. simpl. rewrite Hch. simpl.
  by rewrite Hvb.
Qed.

Lemma read_raises_with_transform (doc : Document) (q : Qc) (e : exn) :
  viewbox_transform convert py_float (root_attrib doc) = Raise e ->
  forall h, read convert py_float doc q h = Raise e.
Proof. intros He h. unfold read. bind_step. by rewrite He. Qed.

Lemma run_read (doc : Document) (q : Qc) (h : heap) :
  run (read convert py_float doc q) h = read_value convert py_float doc q.
Proof. apply computes_run, read_computes. Qed.

End SharedSteps.

(** ** The transform *)

Section TransformExtras.

Variable convert : string -> result Qc.
Variable py_float : string -> result Qc.

(** X1: with [width], [height] and at least four [viewBox] numbers
    [a b c d ...] read, and [c <> a], [d <> b], the transform is
    [scale_x = w / (c - a)], [scale_y = h / (d - b)], [offset_x = -a],
    [offset_y = -b]; numbers after the fourth play no part. *)
Theorem viewbox_scale_is_size_over_difference (attrib : gmap string string)
    (sw sh sv : string) (w h a b c d : Qc) (rest : list Qc) :
  attrib !! "viewBox"%string = Some sv ->
  attrib !! "width"%string = Some sw ->
  attrib !! "height"%string = Some sh ->
  convert sw = Ok w ->
  convert sh = Ok h ->
  comprehension py_float (split sv) = Ok (a :: b :: c :: d :: rest) ->
  c <> a -> d <> b ->
  viewbox_transform convert py_float attrib
  = Ok {| scale_x := w / (c - a); scale_y := h / (d - b);
          offset_x := - a; offset_y := - b |}.
Proof.
  intros Hv Hw Hh Hcw Hch Hvb Hca Hdb.
  rewrite (viewbox_transform_numbers convert py_float attrib sw sh sv w h
             (a :: b :: c :: d :: rest)) by done.
  rewrite !getitem_nonneg by lia. simpl.
  rewrite (truediv_defined w (c - a)) by by apply Qcminus_neq_0.
  simpl. by rewrite (truediv_defined h (d - b)) by by apply Qcminus_neq_0.
Qed.

(** X3: under the same conditions the scaler sends the raw point [(a, b)],
    the first pair of [viewBox] numbers, to the origin. *)
Theorem viewbox_min_corner_lands_on_origin (attrib : gmap string string)
    (sw sh sv : string) (w h a b c d : Qc) (rest : list Qc) (mem : heap) :
  attrib !! "viewBox"%string = Some sv ->
  attrib !! "width"%string = Some sw ->
  attrib !! "height"%string = Some sh ->
  convert sw = Ok w ->
  convert sh = Ok h ->
  comprehension py_float (split sv) = Ok (a :: b :: c :: d :: rest) ->
  c <> a -> d <> b ->
  exists t,
    viewbox_transform convert py_float attrib = Ok t
    /\ run (scale_coords t [Complex a b]) mem = Ok [(0, 0)].
Proof.
  intros Hv Hw Hh Hcw Hch Hvb Hca Hdb.
  eexists. split.
  - rewrite (viewbox_transform_numbers convert py_float attrib sw sh sv w h
               (a :: b :: c :: d :: rest)) by done.
    rewrite !getitem_nonneg by lia. simpl.
    rewrite (truediv_defined w (c - a)) by by apply Qcminus_neq_0.
    simpl. by rewrite (truediv_defined h (d - b)) by by apply Qcminus_neq_0.
  - rewrite (computes_run _ _ mem (scale_coords_computes _ _)).
    unfold scale_point. simpl. do 3 f_equal; ring.
Qed.

(** X4: with [width] and [height] read, a [viewBox] of fewer than three
    numbers raises [IndexError]; one of exactly three numbers [a b c] raises
    [ZeroDivisionError] when [c = a] (the division comes first) and
    [IndexError] otherwise. *)
Theorem viewbox_too_few_numbers (attrib : gmap string string)
    (sw sh sv : string) (w h : Qc) (viewbox : list Qc) :
  attrib !! "viewBox"%string = Some sv ->
  attrib !! "width"%string = Some sw ->
  attrib !! "height"%string = Some sh ->
  convert sw = Ok w ->
  convert sh = Ok h ->
  comprehension py_float (split sv) = Ok viewbox ->
  ((length viewbox < 3)%nat ->
     viewbox_transform convert py_float attrib = Raise IndexError)
  /\ (forall a b c, viewbox = [a; b; c] ->
        viewbox_transform convert py_float attrib
        = Raise (if decide (c = a) then ZeroDivisionError else IndexError)).
Proof.
  intros Hv Hw Hh Hcw Hch Hvb.
  rewrite (viewbox_transform_numbers convert py_float attrib sw sh sv w h viewbox)
    by done.
  rewrite !getitem_nonneg by lia. split.
  - intros Hlen. by rewrite (proj2 (lookup_ge_None viewbox (Z.to_nat 2))) by lia.
  - intros a b c ->. simpl.
    destruct (decide (c = a)) as [->|Hne].
    + unfold truediv. by rewrite decide_True by ring.
    + by rewrite (truediv_defined w (c - a)) by by apply Qcminus_neq_0.
Qed.

(** X5: with [width] and [height] read, a [viewBox] that is empty or holds
    whitespace only raises [IndexError], whatever [float] would accept. *)
Theorem viewbox_blank_raises (attrib : gmap string string)
    (sw sh sv : string) (w h : Qc) :
  attrib !! "viewBox"%string = Some sv ->
  attrib !! "width"%string = Some sw ->
  attrib !! "height"%string = Some sh ->
  convert sw = Ok w ->
  convert sh = Ok h ->
  blank sv = true ->
  viewbox_transform convert py_float attrib = Raise IndexError.
Proof.
  intros Hv Hw Hh Hcw Hch Hblank.
  rewrite (viewbox_transform_numbers convert py_float attrib sw sh sv w h []).
  - done.
  - done.
  - done.
  - done.
  - done.
  - done.
  - unfold split. by rewrite split_go_blank.
Qed.

(** X6: with a [viewBox] on the root, the first thing to go wrong decides
    the exception of the command, in the order of the source: [convert] on
    [width], then [convert] on [height], then, for a [viewBox] written in
    ASCII, [float] on the first token it rejects. *)
Theorem transform_errors_in_source_order (doc : Document) (q : Qc) (e : exn)
    (sv : string) :
  root_attrib doc !! "viewBox"%string = Some sv ->
  (forall sw,
     root_attrib doc !! "width"%string = Some sw -> convert sw = Raise e ->
     forall h, read convert py_float doc q h = Raise e)
  /\ (forall sw w sh,
        root_attrib doc !! "width"%string = Some sw -> convert sw = Ok w ->
        root_attrib doc !! "height"%string = Some sh -> convert sh = Raise e ->
        forall h, read convert py_float doc q h = Raise e)
  /\ (forall sw w sh h' pre tok post,
        root_attrib doc !! "width"%string = Some sw -> convert sw = Ok w ->
        root_attrib doc !! "height"%string = Some sh -> convert sh = Ok h' ->
        ascii_only sv = true ->
        split sv = pre ++ tok :: post ->
        Forall (fun s => exists x, py_float s = Ok x) pre ->
        py_float tok = Raise e ->
        forall h, read convert py_float doc q h = Raise e).
Proof.
  intros Hv. repeat split.
  - intros sw Hw Hcw. apply read_raises_with_transform.
    unfold viewbox_transform, dict_getitem.
    rewrite decide_True by (rewrite Hv; eauto).
    rewrite Hw. simpl. by rewrite Hcw.
  - intros sw w sh Hw Hcw Hh Hch. apply read_raises_with_transform.
    unfold viewbox_transform, dict_getitem.
    rewrite decide_True by (rewrite Hv; eauto).
    rewrite Hw. simpl. rewrite Hcw. simpl. rewrite Hh. simpl. by rewrite Hch.
  - intros sw w sh h' pre tok post Hw Hcw Hh Hch _ Hsplit Hpre Htok.
    apply read_raises_with_transform.
    unfold viewbox_transform, dict_getitem.
    rewrite decide_True by (rewrite Hv; eauto).
    rewrite Hw. simpl. rewrite Hcw. simpl. rewrite Hh. simpl. rewrite Hch. simpl.
    rewrite Hv. simpl. rewrite Hsplit.
    by rewrite (comprehension_first_failure py_float e pre tok post).
Qed.

End TransformExtras.

(** ** The linearizer *)

Lemma curve_step_cases (len q : Qc) :
  curve_step len q
  = if decide (q = 0) then Raise ZeroDivisionError else Ok (math_ceil (len / q)).
Proof. unfold curve_step, truediv. by case_decide. Qed.

Lemma run_linearize (q : Qc) (elem : segment) (h : heap) :
  run (linearize q elem) h = linearize_value q elem.
Proof. apply computes_run, linearize_computes. Qed.

(** X7: what a curve does at any quantization.  At [q = 0] the division
    raises [ZeroDivisionError].  Otherwise, with [n = ceil(length / q)]:
    [n < -1] raises [ValueError] (an array of negative size), [n = -1] raises
    [IndexError] (the start is written into an empty array), and [n >= 0]
    returns [n + 1] points. *)
Theorem linearize_curve_outcomes (start end_ : complex) (len : Qc)
    (point : Qc -> complex) (q : Qc) (h : heap) :
  (q = 0 ->
     run (linearize q (Curve start end_ len point)) h = Raise ZeroDivisionError)
  /\ (q <> 0 -> (math_ceil (len / q) < -1)%Z ->
        run (linearize q (Curve start end_ len point)) h = Raise ValueError)
  /\ (q <> 0 -> math_ceil (len / q) = (-1)%Z ->
        run (linearize q (Curve start end_ len point)) h = Raise IndexError)
  /\ (q <> 0 -> (0 <= math_ceil (len / q))%Z ->
        exists pts,
          run (linearize q (Curve start end_ len point)) h = Ok pts
          /\ Z.of_nat (length pts) = (math_ceil (len / q) + 1)%Z).
Proof.
  rewrite run_linearize. unfold linearize_value. rewrite curve_step_cases.
  repeat split.
  - intros ->. by rewrite decide_True.
  - intros Hq Hn. rewrite decide_False by done. simpl.
    by rewrite decide_True by lia.
  - intros Hq Hn. rewrite decide_False by done. simpl. rewrite Hn. done.
  - intros Hq Hn. rewrite decide_False by done. simpl.
    rewrite !decide_False by lia. eexists. split; [done|].
    by apply length_curve_points.
Qed.

(** X8: a curve whose length is zero comes out as the single point [end],
    at every quantization other than zero; its start is overwritten. *)
Theorem zero_length_curve_is_its_end (start end_ : complex)
    (point : Qc -> complex) (q : Qc) (h : heap) :
  q <> 0 ->
  run (linearize q (Curve start end_ 0 point)) h = Ok [end_].
Proof.
  intros Hq. rewrite run_linearize. unfold linearize_value.
  rewrite curve_step_cases, decide_False by done.
  unfold Qcdiv. rewrite Qcmult_0_l. reflexivity.
Qed.

(** X10: for a curve of non-negative length, a finer positive quantization
    never yields fewer points. *)
Theorem finer_quantization_no_fewer_points (start end_ : complex) (len : Qc)
    (point : Qc -> complex) (q1 q2 : Qc) (h1 h2 : heap) :
  0 <= len -> 0 < q1 -> q1 <= q2 ->
  exists pts1 pts2,
    run (linearize q1 (Curve start end_ len point)) h1 = Ok pts1
    /\ run (linearize q2 (Curve start end_ len point)) h2 = Ok pts2
    /\ (length pts2 <= length pts1)%nat.
Proof.
  intros Hlen Hq1 Hq12.
  assert (0 < q2) as Hq2 by (eapply Qclt_le_trans; eauto).
  pose proof (math_ceil_nonneg _ (Qcdiv_nonneg _ _ Hlen Hq1)) as H1.
  pose proof (math_ceil_nonneg _ (Qcdiv_nonneg _ _ Hlen Hq2)) as H2.
  assert (math_ceil (len / q2) <= math_ceil (len / q1))%Z as Hmono.
  { apply Qceiling_resp_le. by apply Qcdiv_le_antitone. }
  rewrite !run_linearize. unfold linearize_value.
  rewrite !curve_step_defined by done. simpl.
  rewrite !decide_False by lia. eexists _, _. repeat split.
  pose proof (length_curve_points start end_ point _ H1).
  pose proof (length_curve_points start end_ point _ H2). lia.
Qed.

(** X11: when the curve's own parametrisation starts at [start] and ends at
    [end] ([point(0) = start], [point(1) = end]), the points of a curve of
    positive length at a positive quantization are the curve at the
    fractions [0/step, 1/step, ..., step/step], in this order. *)
Theorem curve_points_sample_uniformly (start end_ : complex) (len : Qc)
    (point : Qc -> complex) (q : Qc) (h : heap) :
  0 < q -> 0 < len -> point 0 = start -> point 1 = end_ ->
  let step := math_ceil (len / q) in
  run (linearize q (Curve start end_ len point)) h
  = Ok (map (fun i => point (of_int i / of_int step)) (seqZ 0 (step + 1))).
Proof.
  intros Hq Hlen H0 H1 step.
  pose proof (math_ceil_pos _ (Qcdiv_pos _ _ Hlen Hq)) as Hstep. fold step in Hstep.
  rewrite run_linearize. unfold linearize_value.
  rewrite curve_step_defined by done. simpl. fold step.
  rewrite !decide_False by lia. f_equal. unfold curve_points.
  rewrite decide_False by lia.
  rewrite (seqZ_cons 0) by lia.
  replace (Z.pred (step + 1)) with ((step - 1) + 1)%Z by lia.
  rewrite seqZ_app by lia. simpl. rewrite map_app. simpl.
  assert (of_int step <> 0) as Hn by (intros H%of_int_eq_0; lia).
  f_equal.
  - rewrite <- H0. f_equal. unfold Qcdiv. by rewrite Qcmult_0_l.
  - f_equal. rewrite <- H1.
    replace (Z.of_nat 0 + (Z.succ 0 + (step - 1)))%Z with step by lia.
    do 2 f_equal. unfold Qcdiv. by rewrite Qcmult_inv_r.
Qed.

(** ** The whole command, again *)

Lemma segment_value_line (t : transform) (q : Qc) (elem : segment) :
  is_line elem ->
  exists p1 p2, forall q', segment_value t q' elem = Ok {| coords_of := [p1; p2] |}.
Proof.
  destruct elem as [start end_|]; [|done]. intros _.
  by exists (scale_point t start), (scale_point t end_).
Qed.

Lemma comprehension_lines (t : transform) (elems : list segment) :
  Forall is_line elems ->
  exists ls,
    (forall q, comprehension (segment_value t q) elems = Ok ls)
    /\ length ls = length elems
    /\ Forall (fun l => length (coords_of l) = 2%nat) ls.
Proof.
  induction 1 as [|elem elems Hline _ (ls & Hls & Hlen & Htwo)].
  - by exists [].
  - destruct (segment_value_line t 0 elem Hline) as (p1 & p2 & Hseg).
    exists ({| coords_of := [p1; p2] |} :: ls). repeat split.
    + intros q. simpl. rewrite Hseg. simpl. by rewrite Hls.
    + simpl. by rewrite Hlen.
    + by constructor.
Qed.

Lemma comprehension_zero_quantization (t : transform) (elems : list segment) :
  Exists is_curve elems ->
  comprehension (segment_value t 0) elems = Raise ZeroDivisionError.
Proof.
  induction elems as [|elem elems IH]; intros Hex.
  - by apply Exists_nil in Hex.
  - apply Exists_cons in Hex. simpl.
    destruct elem as [start end_|start end_ len point].
    + destruct Hex as [[]|Hex]. simpl. by rewrite (IH Hex).
    + unfold segment_value, linearize_value. rewrite curve_step_cases.
      by rewrite decide_True.
Qed.

Section CommandExtras.

Variable convert : string -> result Qc.
Variable py_float : string -> result Qc.

(** X13: reading the paths [r1] followed by [r2] under one root gives the
    polylines of [r1] followed by those of [r2]; when reading either part
    raises, the whole raises the same exception, that of [r1] first. *)
Theorem read_concatenates_paths (attrib : gmap string string)
    (r1 r2 : list FlattenedPath) (q : Qc) (h : heap) :
  run (read convert py_float (document attrib (r1 ++ r2)) q) h
  = (o1 ← run (read convert py_float (document attrib r1) q) h;
     o2 ← run (read convert py_float (document attrib r2) q) h;
     Ok {| geoms := geoms o1 ++ geoms o2 |}).
Proof.
  rewrite !run_read. unfold read_value, segments. simpl.
  rewrite map_app, concat_app.
  destruct (viewbox_transform convert py_float attrib) as [t|e]; simpl; [|done].
  rewrite comprehension_app.
  destruct (comprehension (segment_value t q) (concat (map path r1))) as [l1|e];
    simpl; [|done].
  by destruct (comprehension (segment_value t q) (concat (map path r2))).
Qed.

(** X14: the output depends on the root attributes and on the sequence of
    segments only: how the segments are grouped into paths does not show. *)
Theorem read_ignores_path_grouping (doc1 doc2 : Document) (q : Qc) (h1 h2 : heap) :
  root_attrib doc1 = root_attrib doc2 ->
  segments doc1 = segments doc2 ->
  run (read convert py_float doc1 q) h1 = run (read convert py_float doc2 q) h2.
Proof.
  intros Hroot Hsegs. rewrite !run_read. unfold read_value.
  by rewrite Hroot, Hsegs.
Qed.

(** X15: a document of straight lines only is read the same at every
    quantization, zero and negative ones included; once its transform is
    resolved it is read without error, into one two-point polyline per line. *)
Theorem lines_only_ignore_quantization (doc : Document) (q1 q2 : Qc) (h1 h2 : heap) :
  Forall is_line (segments doc) ->
  run (read convert py_float doc q1) h1 = run (read convert py_float doc q2) h2
  /\ (forall t,
        viewbox_transform convert py_float (root_attrib doc) = Ok t ->
        exists out,
          run (read convert py_float doc q1) h1 = Ok out
          /\ length (geoms out) = length (segments doc)
          /\ Forall (fun l => length (coords_of l) = 2%nat) (geoms out)).
Proof.
  intros Hlines. rewrite !run_read. unfold read_value. split.
  - destruct (viewbox_transform convert py_float (root_attrib doc)) as [t|e];
      simpl; [|done].
    destruct (comprehension_lines t (segments doc) Hlines) as (ls & Hls & _).
    by rewrite !Hls.
  - intros t ->. simpl.
    destruct (comprehension_lines t (segments doc) Hlines) as (ls & Hls & Hlen & Htwo).
    exists {| geoms := ls |}. by rewrite Hls.
Qed.

(** X16: at quantization zero, a document whose transform resolves and which
    holds a curve anywhere raises [ZeroDivisionError]. *)
Theorem zero_quantization_with_curve_raises (doc : Document) (t : transform)
    (h : heap) :
  viewbox_transform convert py_float (root_attrib doc) = Ok t ->
  Exists is_curve (segments doc) ->
  run (read convert py_float doc 0) h = Raise ZeroDivisionError.
Proof.
  intros Ht Hcurve. rewrite run_read. unfold read_value. rewrite Ht. simpl.
  by rewrite comprehension_zero_quantization.
Qed.

End CommandExtras.

(** ** The further properties on the sample documents *)

Lemma viewbox_scale_is_size_over_difference_witness :
  viewbox_transform decimal_literal decimal_literal attrib_five
  = Ok {| scale_x := of_int 100 / (of_int 100 - of_int 10);
          scale_y := of_int 100 / (of_int 100 - of_int 10);
          offset_x := - of_int 10; offset_y := - of_int 10 |}.
Proof.
  apply (viewbox_scale_is_size_over_difference decimal_literal decimal_literal
           attrib_five "100" "100" "10 10 100 100 7"
           (of_int 100) (of_int 100) (of_int 10) (of_int 10)
           (of_int 100) (of_int 100) [of_int 7]);
    compute_done.
Defined.

Lemma viewbox_transform_fault_iff_witness :
  viewbox_transform decimal_literal decimal_literal attrib_square
  = Raise ZeroDivisionError
  <-> of_int 10 = of_int 10 \/ of_int 10 = of_int 10.
Proof.
  apply (viewbox_transform_fault_iff decimal_literal decimal_literal
           attrib_square "100" "100" "10 10 10 10"
           (of_int 100) (of_int 100) (of_int 10) (of_int 10)
           (of_int 10) (of_int 10));
    compute_done.
Defined.

Lemma viewbox_min_corner_lands_on_origin_witness :
  exists t,
    viewbox_transform decimal_literal decimal_literal attrib_offset = Ok t
    /\ run (scale_coords t [Complex (of_int 10) (of_int 10)]) dirty = Ok [(0, 0)].
Proof.
  apply (viewbox_min_corner_lands_on_origin decimal_literal decimal_literal
           attrib_offset "100" "100" "10 10 100 100"
           (of_int 100) (of_int 100) (of_int 10) (of_int 10)
           (of_int 100) (of_int 100) [] dirty);
    compute_done.
Defined.

Lemma viewbox_too_few_numbers_witness :
  viewbox_transform decimal_literal decimal_literal attrib_two = Raise IndexError
  /\ viewbox_transform decimal_literal decimal_literal attrib_three
     = Raise (if decide (of_int 100 = of_int 10)
              then ZeroDivisionError else IndexError)
  /\ viewbox_transform decimal_literal decimal_literal attrib_three_equal
     = Raise (if decide (of_int 10 = of_int 10)
              then ZeroDivisionError else IndexError).
Proof.
  split; [|split].
  - destruct (viewbox_too_few_numbers decimal_literal decimal_literal attrib_two
                "100" "100" "10 10" (of_int 100) (of_int 100)
                [of_int 10; of_int 10]) as [Hshort _]; [compute_done..|].
    apply Hshort. simpl. lia.
  - destruct (viewbox_too_few_numbers decimal_literal decimal_literal attrib_three
                "100" "100" "10 10 100" (of_int 100) (of_int 100)
                [of_int 10; of_int 10; of_int 100]) as [_ Hthree]; [compute_done..|].
    by apply (Hthree (of_int 10) (of_int 10) (of_int 100)).
  - destruct (viewbox_too_few_numbers decimal_literal decimal_literal
                attrib_three_equal
                "100" "100" "10 10 10" (of_int 100) (of_int 100)
                [of_int 10; of_int 10; of_int 10]) as [_ Hthree]; [compute_done..|].
    by apply (Hthree (of_int 10) (of_int 10) (of_int 10)).
Defined.

Lemma viewbox_blank_raises_witness :
  viewbox_transform decimal_literal decimal_literal attrib_blank = Raise IndexError.
Proof.
  apply (viewbox_blank_raises decimal_literal decimal_literal attrib_blank
           "100" "100" "   " (of_int 100) (of_int 100));
    compute_done.
Defined.

Lemma transform_errors_in_source_order_witness :
  (forall h, read decimal_literal decimal_literal
               (document attrib_bad_width [ {| path := [chord] |} ]) (of_int 2) h
             = Raise ValueError)
  /\ (forall h, read decimal_literal decimal_literal
                  (document attrib_bad_height [ {| path := [chord] |} ]) (of_int 2) h
                = Raise ValueError)
  /\ (forall h, read decimal_literal decimal_literal
                  (document attrib_bad_number [ {| path := [chord] |} ]) (of_int 2) h
                = Raise ValueError).
Proof.
  split; [|split].
  - destruct (transform_errors_in_source_order decimal_literal decimal_literal
                (document attrib_bad_width [ {| path := [chord] |} ]) (of_int 2)
                ValueError "0 0 200 100") as (Hw & _ & _); [reflexivity|].
    apply (Hw "wide"%string); reflexivity.
  - destruct (transform_errors_in_source_order decimal_literal decimal_literal
                (document attrib_bad_height [ {| path := [chord] |} ]) (of_int 2)
                ValueError "0 0 200 100") as (_ & Hh & _); [reflexivity|].
    apply (Hh "100"%string (of_int 100) "tall"%string);
      [reflexivity | compute_done | reflexivity | reflexivity].
  - destruct (transform_errors_in_source_order decimal_literal decimal_literal
                (document attrib_bad_number [ {| path := [chord] |} ]) (of_int 2)
                ValueError "0 0 two 100") as (_ & _ & Hn); [reflexivity|].
    apply (Hn "100"%string (of_int 100) "100"%string (of_int 100)
              ["0"; "0"]%string "two"%string ["100"]%string);
      [reflexivity | compute_done | reflexivity | compute_done | reflexivity
      | reflexivity | repeat constructor; by eexists | reflexivity].
Defined.

Lemma linearize_curve_outcomes_witness :
  run (linearize 0 chord) dirty = Raise ZeroDivisionError
  /\ run (linearize (- of_int 1) chord) dirty = Raise ValueError
  /\ run (linearize (- of_int 5) chord) dirty = Raise IndexError
  /\ exists pts,
       run (linearize (of_int 2) chord) dirty = Ok pts
       /\ Z.of_nat (length pts) = (math_ceil (of_int 5 / of_int 2) + 1)%Z.
Proof.
  split; [|split; [|split]].
  - apply (linearize_curve_outcomes origin (pt 3 4) (of_int 5)
             (fun t => Complex (of_int 3 * t) (of_int 4 * t)) 0 dirty).
    reflexivity.
  - apply (linearize_curve_outcomes origin (pt 3 4) (of_int 5)
             (fun t => Complex (of_int 3 * t) (of_int 4 * t)) (- of_int 1) dirty);
      [discriminate | reflexivity].
  - apply (linearize_curve_outcomes origin (pt 3 4) (of_int 5)
             (fun t => Complex (of_int 3 * t) (of_int 4 * t)) (- of_int 5) dirty);
      [discriminate | reflexivity].
  - apply (linearize_curve_outcomes origin (pt 3 4) (of_int 5)
             (fun t => Complex (of_int 3 * t) (of_int 4 * t)) (of_int 2) dirty);
      discriminate.
Defined.

Lemma zero_length_curve_is_its_end_witness :
  run (linearize (of_int 2) (Curve (pt 1 2) (pt 3 4) 0 (fun _ => origin))) dirty
  = Ok [pt 3 4].
Proof.
  apply (zero_length_curve_is_its_end (pt 1 2) (pt 3 4) (fun _ => origin)
           (of_int 2) dirty).
  discriminate.
Defined.

Lemma finer_quantization_no_fewer_points_witness :
  exists pts1 pts2,
    run (linearize (of_int 1) chord) zeroed = Ok pts1
    /\ run (linearize (of_int 2) chord) dirty = Ok pts2
    /\ (length pts2 <= length pts1)%nat.
Proof.
  apply (finer_quantization_no_fewer_points origin (pt 3 4) (of_int 5)
           (fun t => Complex (of_int 3 * t) (of_int 4 * t))
           (of_int 1) (of_int 2) zeroed dirty).
  - discriminate.
  - reflexivity.
  - discriminate.
Defined.

Lemma curve_points_sample_uniformly_witness :
  let step := math_ceil (frac 3 2 / frac 1 2) in
  run (linearize (frac 1 2) quarter) dirty
  = Ok (map (fun i =>
               Complex
                 ((1 - of_int i / of_int step * (of_int i / of_int step))
                  / (1 + of_int i / of_int step * (of_int i / of_int step)))
                 (of_int 2 * (of_int i / of_int step)
                  / (1 + of_int i / of_int step * (of_int i / of_int step))))
          (seqZ 0 (step + 1))).
Proof.
  apply (curve_points_sample_uniformly (pt 1 0) (pt 0 1) (frac 3 2)
           (fun t => Complex ((1 - t * t) / (1 + t * t))
                             (of_int 2 * t / (1 + t * t)))
           (frac 1 2) dirty).
  - reflexivity.
  - reflexivity.
  - compute_done.
  - compute_done.
Defined.

Lemma read_ignores_path_grouping_witness :
  run (read decimal_literal decimal_literal doc_plain (of_int 2)) zeroed
  = run (read decimal_literal decimal_literal doc_plain_regrouped (of_int 2)) dirty.
Proof.
  apply (read_ignores_path_grouping decimal_literal decimal_literal
           doc_plain doc_plain_regrouped (of_int 2) zeroed dirty);
    reflexivity.
Defined.

Lemma lines_only_ignore_quantization_witness :
  run (read decimal_literal decimal_literal doc_lines 0) zeroed
  = run (read decimal_literal decimal_literal doc_lines (- of_int 1)) dirty
  /\ exists out,
       run (read decimal_literal decimal_literal doc_lines 0) zeroed = Ok out
       /\ length (geoms out) = length (segments doc_lines)
       /\ Forall (fun l => length (coords_of l) = 2%nat) (geoms out).
Proof.
  destruct (lines_only_ignore_quantization decimal_literal decimal_literal
              doc_lines 0 (- of_int 1) zeroed dirty) as [Hsame Hout].
  - repeat constructor.
  - split; [exact Hsame|]. apply (Hout halve). compute_done.
Defined.

Lemma zero_quantization_with_curve_raises_witness :
  run (read decimal_literal decimal_literal doc_scaled 0) dirty
  = Raise ZeroDivisionError.
Proof.
  apply (zero_quantization_with_curve_raises decimal_literal decimal_literal
           doc_scaled halve dirty).
  - compute_done.
  - apply Exists_cons_tl, Exists_cons_hd. exact I.
Defined.
